(** * aas.adapter.xml.xml_serialization and aas.model.security

    A shallow embedding of [src/aas/adapter/xml/xml_serialization.py]: the
    enumeration tables (lines 28-76), the execution of the module's top level
    (lines 17-20, 28-76, 80, 157) and the body of [abstract_classes_to_xml]
    (lines 80-149), with Python's exceptions as an explicit outcome and the
    object that the function reads as the state that every step passes on;
    and of [src/aas/model/security.py]: the enumeration [PermissionKind], the
    initializers whose parameters default to a set, with the sets on a heap,
    and the top level of the module. *)

From stdpp Require Import base decidable option list strings finite gmap.
From stdpp Require Import pretty.

#[local] Set Warnings "-clear-no-such-hyp".

(** Closed decidable goals are settled by evaluation. *)
Ltac by_evaluation :=
  lazymatch goal with
  | |- ?P => apply (bool_decide_unpack P); vm_compute; exact I
  end.

(** ** Members of the enumerations of [aas.model]

    The declarations of the enumerations ([aas/model/base.py]) are not part of
    the sources at hand.  For each enumeration, [t] is the type of the members
    that the table of [xml_serialization.py] names, one constructor per
    member, in the order of the table.  What other members an enumeration has
    the tables do not tell: where a property is about the enumeration itself,
    the enumeration is any finite type that holds these members.  For
    ModelingKind, AssetKind, KeyType, IdentifierType and EntityType the
    members named are those that sections 3 and 6 of the specification list;
    for KeyElements the specification gives a number only. *)

Module ModelingKind.
Inductive t := TEMPLATE | INSTANCE.
#[global] Instance eq_dec : EqDecision t.
Proof. solve_decision. Defined.
#[global] Program Instance finite : Finite t := {| enum := [TEMPLATE; INSTANCE] |}.
Next Obligation. by_evaluation. Qed.
Next Obligation. intros []; by_evaluation. Qed.
End ModelingKind.

Module AssetKind.
Inductive t := TYPE | INSTANCE.
#[global] Instance eq_dec : EqDecision t.
Proof. solve_decision. Defined.
#[global] Program Instance finite : Finite t := {| enum := [TYPE; INSTANCE] |}.
Next Obligation. by_evaluation. Qed.
Next Obligation. intros []; by_evaluation. Qed.
End AssetKind.

Module KeyElements.
Inductive t :=
| ASSET
| ASSET_ADMINISTRATION_SHELL
| CONCEPT_DESCRIPTION
| SUBMODEL
| ANNOTATED_RELATIONSHIP_ELEMENT
| BASIC_EVENT
| BLOB
| CAPABILITY
| CONCEPT_DICTIONARY
| DATA_ELEMENT
| ENTITY
| EVENT
| FILE
| MULTI_LANGUAGE_PROPERTY
| OPERATION
| PROPERTY
| RANGE
| REFERENCE_ELEMENT
| RELATIONSHIP_ELEMENT
| SUBMODEL_ELEMENT
| SUBMODEL_ELEMENT_COLLECTION
| VIEW
| GLOBAL_REFERENCE
| FRAGMENT_REFERENCE.
#[global] Instance eq_dec : EqDecision t.
Proof. solve_decision. Defined.
#[global] Program Instance finite : Finite t :=
  {| enum := [ASSET; ASSET_ADMINISTRATION_SHELL; CONCEPT_DESCRIPTION; SUBMODEL;
              ANNOTATED_RELATIONSHIP_ELEMENT; BASIC_EVENT; BLOB; CAPABILITY;
              CONCEPT_DICTIONARY; DATA_ELEMENT; ENTITY; EVENT; FILE;
              MULTI_LANGUAGE_PROPERTY; OPERATION; PROPERTY; RANGE;
              REFERENCE_ELEMENT; RELATIONSHIP_ELEMENT; SUBMODEL_ELEMENT;
              SUBMODEL_ELEMENT_COLLECTION; VIEW; GLOBAL_REFERENCE;
              FRAGMENT_REFERENCE] |}.
Next Obligation. by_evaluation. Qed.
Next Obligation. intros []; by_evaluation. Qed.
End KeyElements.

Module KeyType.
Inductive t := CUSTOM | IRDI | IRI | IDSHORT | FRAGMENT_ID.
#[global] Instance eq_dec : EqDecision t.
Proof. solve_decision. Defined.
#[global] Program Instance finite : Finite t :=
  {| enum := [CUSTOM; IRDI; IRI; IDSHORT; FRAGMENT_ID] |}.
Next Obligation. by_evaluation. Qed.
Next Obligation. intros []; by_evaluation. Qed.
End KeyType.

Module IdentifierType.
Inductive t := CUSTOM | IRDI | IRI.
#[global] Instance eq_dec : EqDecision t.
Proof. solve_decision. Defined.
#[global] Program Instance finite : Finite t := {| enum := [CUSTOM; IRDI; IRI] |}.
Next Obligation. by_evaluation. Qed.
Next Obligation. intros []; by_evaluation. Qed.
End IdentifierType.

Module EntityType.
Inductive t := CO_MANAGED_ENTITY | SELF_MANAGED_ENTITY.
#[global] Instance eq_dec : EqDecision t.
Proof. solve_decision. Defined.
#[global] Program Instance finite : Finite t :=
  {| enum := [CO_MANAGED_ENTITY; SELF_MANAGED_ENTITY] |}.
Next Obligation. by_evaluation. Qed.
Next Obligation. intros []; by_evaluation. Qed.
End EntityType.

(** ** The enumeration tables (lines 28-76)

    Each table is a [dict] from the members of one enumeration to strings. *)



Definition KEY_ELEMENTS : gmap KeyElements.t string :=
  list_to_map
    [(KeyElements.ASSET, "Asset");
     (KeyElements.ASSET_ADMINISTRATION_SHELL, "AssetAdministrationShell");
     (KeyElements.CONCEPT_DESCRIPTION, "ConceptDescription");
     (KeyElements.SUBMODEL, "Submodel");
     (KeyElements.ANNOTATED_RELATIONSHIP_ELEMENT, "AnnotatedRelationshipElement");
     (KeyElements.BASIC_EVENT, "BasicEvent");
     (KeyElements.BLOB, "Blob");
     (KeyElements.CAPABILITY, "Capability");
     (KeyElements.CONCEPT_DICTIONARY, "ConceptDictionary");
     (KeyElements.DATA_ELEMENT, "DataElement");
     (KeyElements.ENTITY, "Entity");
     (KeyElements.EVENT, "Event");
     (KeyElements.FILE, "File");
     (KeyElements.MULTI_LANGUAGE_PROPERTY, "MultiLanguageProperty");
     (KeyElements.OPERATION, "Operation");
     (KeyElements.PROPERTY, "Property");
     (KeyElements.RANGE, "Range");
     (KeyElements.REFERENCE_ELEMENT, "ReferenceElement");
     (KeyElements.RELATIONSHIP_ELEMENT, "RelationshipElement");
     (KeyElements.SUBMODEL_ELEMENT, "SubmodelElement");
     (KeyElements.SUBMODEL_ELEMENT_COLLECTION, "SubmodelElementCollection");
     (KeyElements.VIEW, "View");
     (KeyElements.GLOBAL_REFERENCE, "GlobalReference");
     (KeyElements.FRAGMENT_REFERENCE, "FragmentReference")].


Definition IDENTIFIER_TYPES : gmap IdentifierType.t string :=
  list_to_map
    [(IdentifierType.CUSTOM, "Custom");
     (IdentifierType.IRDI, "IRDI");
     (IdentifierType.IRI, "IRI")].





(** ** Python values, exceptions and outcomes *)

(** An exception: the name of its class and its message. *)
Record PyErr := mkErr { exc_type : string; exc_msg : string }.

#[global] Instance PyErr_eq_dec : EqDecision PyErr.
Proof. solve_decision. Defined.

Definition NameError (name : string) : PyErr :=
  mkErr "NameError" ("name '" +:+ name +:+ "' is not defined").

Definition StopIteration : PyErr := mkErr "StopIteration" "".

Definition TypeError (msg : string) : PyErr := mkErr "TypeError" msg.

(** A statement or call either completes with a value or raises. *)
Inductive outcome (A : Type) : Type :=
| Return (a : A)
| Raise (e : PyErr).
Arguments Return {A} a.
Arguments Raise {A} e.

(** Modelled from the spec: [Reference] is a class of [aas/model/base.py],
    which is not part of the sources at hand.  The serializer only tests
    whether a reference is present and passes it on (it is "a reference to an
    external semantic definition"), so a reference is represented by a name
    that identifies it. *)
Record Reference := mkReference { reference_name : string }.

(** Modelled from the spec: [Constraint], of [aas/model/base.py] as well, is
    "opaque to this core" and represented in the same way. *)
Record Constraint := mkConstraint { constraint_name : string }.

#[global] Instance Reference_eq_dec : EqDecision Reference.
Proof. solve_decision. Defined.
#[global] Instance Constraint_eq_dec : EqDecision Constraint.
Proof. solve_decision. Defined.
#[global] Instance Reference_countable : Countable Reference :=
  inj_countable' reference_name mkReference (λ r, match r with mkReference _ => eq_refl end).
#[global] Instance Constraint_countable : Countable Constraint :=
  inj_countable' constraint_name mkConstraint (λ c, match c with mkConstraint _ => eq_refl end).

(** The values that the function handles as attribute values, call arguments
    and element texts. *)
Inductive PyVal :=
| PyNone
| PyStr (s : string)
| PyDict (d : gmap string string)
| PyIdentifierType (m : IdentifierType.t)
| PyModelingKind (m : ModelingKind.t)
| PyReference (r : Reference)
| PyReferenceSet (s : gset Reference)
| PyConstraintSet (s : gset Constraint).

(** [type(v).__name__] *)
Definition type_name (v : PyVal) : string :=
  match v with
  | PyNone => "NoneType"
  | PyStr _ => "str"
  | PyDict _ => "dict"
  | PyIdentifierType _ => "IdentifierType"
  | PyModelingKind _ => "ModelingKind"
  | PyReference _ => "Reference"
  | PyReferenceSet _ | PyConstraintSet _ => "set"
  end.

(** [bool(v)]: [None], the empty string and empty containers are false; enum
    members and plain objects are true. *)
Definition truthy (v : PyVal) : bool :=
  match v with
  | PyNone => false
  | PyStr s => bool_decide (s ≠ "")
  | PyDict d => bool_decide (d ≠ ∅)
  | PyIdentifierType _ | PyModelingKind _ | PyReference _ => true
  | PyReferenceSet s => bool_decide (s ≠ ∅)
  | PyConstraintSet s => bool_decide (s ≠ ∅)
  end.

(** An [Optional[T]] attribute as a value. *)
Definition optional {A} (inj : A → PyVal) (o : option A) : PyVal :=
  from_option inj PyNone o.

(** ** [xml.etree.ElementTree.Element]

    A new element has no attributes, no children and [text = None].  The
    function never touches an element after it has stored it in a list or in
    another element, so elements are handled as values and [set] and [insert]
    give the updated element. *)
Module ET.
#[warnings="-register-all"]
Inductive Element : Type :=
  mkElement { tag : string;
              attrib : gmap string PyVal;
              text : PyVal;
              children : list Element }.

(** [ET.Element(tag)] *)
Definition Element_ (tag : string) : Element :=
  {| tag := tag; attrib := ∅; text := PyNone; children := [] |}.

(** [e.set(key, value)] *)
Definition set (e : Element) (key : string) (value : PyVal) : Element :=
  {| tag := tag e; attrib := <[key := value]> (attrib e);
     text := text e; children := children e |}.

(** [e.text = value] *)
Definition set_text (e : Element) (value : PyVal) : Element :=
  {| tag := tag e; attrib := attrib e; text := value; children := children e |}.

(** [e.insert(index, subelement)]: [list.insert], which puts the new item
    before position [index] and at the end when [index] is past the end. *)
Definition insert (e : Element) (index : nat) (subelement : Element) : Element :=
  {| tag := tag e; attrib := attrib e; text := text e;
     children := take index (children e) ++ subelement :: drop index (children e) |}.
End ET.

(** ** Entities

    The capability classes of [aas/model/base.py] (Referable, Identifiable,
    HasDataSpecification, HasSemantics, HasKind, Qualifiable) are not part of
    the sources at hand.  Each is given by the attributes that section 3 of
    the specification lists and that [abstract_classes_to_xml] reads; the
    attribute types of Referable and Qualifiable are those of
    [AccessPermissionRule.__init__] in [aas/model/security.py]. *)

Module Referable.
(** Modelled from the spec: Referable has [id_short], an optional [category]
    and an optional [description], a language-tagged text set. *)
Record t := mk { id_short : string;
                 category : option string;
                 description : option (gmap string string) }.
End Referable.

Module Identifier.
(** Modelled from the spec: an identification is an id value with its id
    type. *)
Record t := mk { id : string; id_type : IdentifierType.t }.
End Identifier.

Module AdministrativeInformation.
(** Modelled from the spec: administration is (version, revision), each of
    which may be absent. *)
Record t := mk { version : option string; revision : option string }.
End AdministrativeInformation.

Module Identifiable.
(** Modelled from the spec: Identifiable has an [identification] and an
    optional [administration]. *)
Record t := mk { identification : Identifier.t;
                 administration : option AdministrativeInformation.t }.
End Identifiable.

Module HasDataSpecification.
(** Modelled from the spec: HasDataSpecification has a set of references. *)
Record t := mk { data_specification : gset Reference }.
End HasDataSpecification.

Module HasSemantics.
(** Modelled from the spec: HasSemantics has an optional [semantic_id]. *)
Record t := mk { semantic_id : option Reference }.
End HasSemantics.

Module HasKind.
(** Modelled from the spec: HasKind has a [kind]. *)
Record t := mk { kind : ModelingKind.t }.
End HasKind.

Module Qualifiable.
(** Modelled from the spec: Qualifiable has a set of [qualifier]
    constraints. *)
Record t := mk { qualifier : gset Constraint }.
End Qualifiable.

(** Modelled from the spec: an entity exhibits zero or more capabilities.  It
    carries the attributes of each capability it exhibits ([isinstance] of
    that capability's class holds exactly then), the name of its class and the
    names of the classes of its type in method resolution order. *)
Record Entity := mkEntity {
  class_name : string;                  (* obj.__class__.__name__ *)
  mro : list string;                    (* inspect.getmro(type(obj)), by name *)
  as_Referable : option Referable.t;
  as_Identifiable : option Identifiable.t;
  as_HasDataSpecification : option HasDataSpecification.t;
  as_HasSemantics : option HasSemantics.t;
  as_HasKind : option HasKind.t;
  as_Qualifiable : option Qualifiable.t }.

(** Modelled from the spec: Identifiable implies Referable. *)
Definition well_formed (obj : Entity) : Prop :=
  is_Some (as_Identifiable obj) → is_Some (as_Referable obj).

(** ** Computations

    The function reads the object its parameter is bound to, which its caller
    shares; that object is the state, passed through every step.  A step
    completes or raises. *)
Definition M (A : Type) : Type := Entity → Entity * outcome A.

#[global] Instance M_ret : MRet M := λ A a obj, (obj, Return a).

#[global] Instance M_bind : MBind M := λ A B k m obj,
  match m obj with
  | (obj', Return a) => k a obj'
  | (obj', Raise e) => (obj', Raise e)
  end.

Definition raise {A} (e : PyErr) : M A := λ obj, (obj, Raise e).

(** Reading an attribute of [obj]. *)
Definition getattr {A} (f : Entity → A) : M A := λ obj, (obj, Return (f obj)).

(** [isinstance(obj, cls)], giving with the answer the attributes that [cls]
    declares. *)
Definition isinstance {A} (cls : Entity → option A) : M (option A) := getattr cls.

(** [callee(args)]: none of the values above is callable. *)
Definition call (callee : PyVal) (args : list PyVal) : M PyVal :=
  raise (TypeError ("'" +:+ type_name callee +:+ "' object is not callable")).

(** [next(iter(xs))] *)
Definition next {A} (xs : list A) : M A :=
  match xs with
  | x :: _ => mret x
  | [] => raise StopIteration
  end.

(** [try: body / except cls as e: handler] *)
Definition try_except {A} (body : M A) (cls : string) (handler : PyErr → M A) : M A :=
  λ obj,
    match body obj with
    | (obj', Raise e) =>
        if bool_decide (exc_type e = cls) then handler e obj' else (obj', Raise e)
    | r => r
    end.

(** ** The top level of the module

    A name is looked up when a statement that reads it runs.  The statements of
    the module, as far as names go: an import binds a name; an annotated
    assignment evaluates its value, binds its target and then evaluates its
    annotation; a function definition evaluates the annotations of its
    signature and binds its name (its body is not run).  Annotations are
    evaluated when their statement runs, as in the Python versions of the
    module's time (3.6 and 3.7, without [from __future__ import
    annotations]). *)
Inductive stmt :=
| Import (name : string)
| AnnAssign (target : string) (annotation value : list string)
| FunctionDef (name : string) (annotations : list string).

Definition builtins : gset string :=
  list_to_set ["object"; "str"; "isinstance"; "type"; "iter"; "next";
               "TypeError"; "StopIteration"].

(** Loading each of [names] in a namespace, in order. *)
Fixpoint load_names (ns : gset string) (names : list string) : outcome unit :=
  match names with
  | [] => Return tt
  | n :: names =>
      if bool_decide (n ∈ ns ∪ builtins) then load_names ns names
      else Raise (NameError n)
  end.

Definition exec_stmt (ns : gset string) (s : stmt) : outcome (gset string) :=
  match s with
  | Import name => Return ({[name]} ∪ ns)
  | AnnAssign target annotation value =>
      match load_names ns value with
      | Raise e => Raise e
      | Return _ =>
          let ns := {[target]} ∪ ns in
          match load_names ns annotation with
          | Raise e => Raise e
          | Return _ => Return ns
          end
      end
  | FunctionDef name annotations =>
      match load_names ns annotations with
      | Raise e => Raise e
      | Return _ => Return ({[name]} ∪ ns)
      end
  end.

Fixpoint exec_module (ns : gset string) (body : list stmt) : outcome (gset string) :=
  match body with
  | [] => Return ns
  | s :: body =>
      match exec_stmt ns s with
      | Raise e => Raise e
      | Return ns => exec_module ns body
      end
  end.

(** The names that the statements of a module bind. *)
Definition bound_name (s : stmt) : string :=
  match s with
  | Import name => name
  | AnnAssign target _ _ => target
  | FunctionDef name _ => name
  end.

Definition xml_serialization : list stmt :=
  [ Import "ET";                                             (* line 17 *)
    Import "List";                                           (* line 18 *)
    Import "model";                                          (* line 20 *)
    AnnAssign "MODELING_KIND" ["Dict"; "model"; "str"] ["model"];      (* 28 *)
    AnnAssign "ASSET_KIND" ["Dict"; "model"; "str"] ["model"];         (* 32 *)
    AnnAssign "KEY_ELEMENTS" ["Dict"; "model"; "str"] ["model"];       (* 36 *)
    AnnAssign "KEY_TYPES" ["Dict"; "model"; "str"] ["model"];          (* 62 *)
    AnnAssign "IDENTIFIER_TYPES" ["Dict"; "model"; "str"] ["model"];   (* 69 *)
    AnnAssign "ENTITY_TYPES" ["Dict"; "model"; "str"] ["model"];       (* 74 *)
    FunctionDef "abstract_classes_to_xml" ["object"; "List"; "ET"];    (* 80 *)
    FunctionDef "submodel_to_xml" ["submodel"] ].                      (* 157 *)

(** The global names of the module: those its statements bind. *)
Definition module_globals : gset string :=
  list_to_set (bound_name <$> xml_serialization).

(** Loading a global name inside a function of the module. *)
Definition load_global (name : string) : M unit :=
  if bool_decide (name ∈ module_globals ∪ builtins) then mret tt
  else raise (NameError name).

(** ** [abstract_classes_to_xml] (lines 80-149) *)

Section abstract_classes.

(** [model.KEY_ELEMENTS_CLASSES], the registry of the classes that have a
    schema element type, by class name.  It is defined in [aas.model], which
    is not part of the sources at hand. *)
Variable KEY_ELEMENTS_CLASSES : gset string.

(** Lines 101-105: the name of the first class of the object's type, in
    method resolution order, that the registry knows. *)
Definition resolve_ref_type : M string :=
  try_except
    (load_global "inspect";;
     mro ← getattr mro;
     next (filter (λ t, t ∈ KEY_ELEMENTS_CLASSES) mro))
    "StopIteration"
    (λ e,
       name ← getattr class_name;
       raise (TypeError ("Object of type " +:+ name +:+
         " is Referable but does not inherit from a known AAS type"))).

Definition abstract_classes_to_xml : M (list ET.Element) :=
  let elements : list ET.Element := [] in
  (* lines 88-108 *)
  referable ← isinstance as_Referable;
  elements ←
    match referable with
    | Some obj =>
        let et_id_short := ET.Element_ "aas:idShort" in
        call (ET.text et_id_short) [PyStr (Referable.id_short obj)];;
        let elements := elements ++ [et_id_short] in
        elements ←
          (if truthy (optional PyStr (Referable.category obj)) then
             let et_category := ET.Element_ "aas:category" in
             call (ET.text et_category) [optional PyStr (Referable.category obj)];;
             mret (elements ++ [et_category])
           else mret elements);
        elements ←
          (if truthy (optional PyDict (Referable.description obj)) then
             let et_description := ET.Element_ "description" in
             call (ET.text et_description) [optional PyDict (Referable.description obj)];;
             mret (elements ++ [et_description])
           else mret elements);
        ref_type ← resolve_ref_type;
        let et_model_type := ET.Element_ "aas:modelType" in
        let et_model_type := ET.set_text et_model_type (PyDict {["name" := ref_type]}) in
        mret (elements ++ [et_model_type])
    | None => mret elements
    end;
  (* lines 110-123 *)
  identifiable ← isinstance as_Identifiable;
  elements ←
    match identifiable with
    | Some obj =>
        let et_identifiable := ET.Element_ "aas:identification" in
        let et_identifiable :=
          ET.set et_identifiable "idType"
            (PyIdentifierType (Identifier.id_type (Identifiable.identification obj))) in
        call (ET.text et_identifiable)
          [PyStr (Identifier.id (Identifiable.identification obj))];;
        let elements := elements ++ [et_identifiable] in
        match Identifiable.administration obj with
        | Some administration =>
            let et_administration := ET.Element_ "aas:administration" in
            let et_administration_version := ET.Element_ "aas:version" in
            call (ET.text et_administration_version)
              [optional PyStr (AdministrativeInformation.version administration)];;
            let et_administration_revision := ET.Element_ "aas:revision" in
            call (ET.text et_administration_revision)
              [optional PyStr (AdministrativeInformation.revision administration)];;
            let et_administration :=
              ET.insert et_administration 0 et_administration_version in
            let et_administration :=
              ET.insert et_administration 1 et_administration_revision in
            mret (elements ++ [et_administration])
        | None => mret elements
        end
    | None => mret elements
    end;
  (* lines 125-129 *)
  has_data_specification ← isinstance as_HasDataSpecification;
  elements ←
    match has_data_specification with
    | Some obj =>
        if truthy (PyReferenceSet (HasDataSpecification.data_specification obj)) then
          let et_has_data_specification := ET.Element_ "aas:embeddedDataSpecification" in
          call (ET.text et_has_data_specification)
            [PyReferenceSet (HasDataSpecification.data_specification obj)];;
          mret (elements ++ [et_has_data_specification])
        else mret elements
    | None => mret elements
    end;
  (* lines 131-135 *)
  has_semantics ← isinstance as_HasSemantics;
  elements ←
    match has_semantics with
    | Some obj =>
        if truthy (optional PyReference (HasSemantics.semantic_id obj)) then
          let et_semantics := ET.Element_ "aas:semanticId" in
          call (ET.text et_semantics)
            [optional PyReference (HasSemantics.semantic_id obj)];;
          mret (elements ++ [et_semantics])
        else mret elements
    | None => mret elements
    end;
  (* lines 137-141 *)
  has_kind ← isinstance as_HasKind;
  elements ←
    match has_kind with
    | Some obj =>
        if bool_decide (HasKind.kind obj = ModelingKind.TEMPLATE) then
          let et_modeling_kind := ET.Element_ "aas:modelingKind" in
          call (ET.text et_modeling_kind) [PyModelingKind (HasKind.kind obj)];;
          mret (elements ++ [et_modeling_kind])
        else mret elements
    | None => mret elements
    end;
  (* lines 143-147 *)
  qualifiable ← isinstance as_Qualifiable;
  elements ←
    match qualifiable with
    | Some obj =>
        if truthy (PyConstraintSet (Qualifiable.qualifier obj)) then
          let et_qualifiers := ET.Element_ "aas:qualifier" in
          call (ET.text et_qualifiers) [PyConstraintSet (Qualifiable.qualifier obj)];;
          mret (elements ++ [et_qualifiers])
        else mret elements
    | None => mret elements
    end;
  (* line 149 *)
  mret elements.

End abstract_classes.

(** The exception that calling [None] raises. *)
Definition NoneType_not_callable : PyErr :=
  TypeError "'NoneType' object is not callable".

(** The entities whose run comes to one of the calls [et.text(...)]: the
    Referable ones (line 91), the Identifiable ones (line 113), and those with
    a non-empty [data_specification] (line 128), a [semantic_id] (line 134),
    [kind] Template (line 140) or a non-empty [qualifier] (line 146). *)
Definition reaches_text_call (obj : Entity) : bool :=
  bool_decide (is_Some (as_Referable obj))
  || bool_decide (is_Some (as_Identifiable obj))
  || from_option (λ c, bool_decide (HasDataSpecification.data_specification c ≠ ∅))
       false (as_HasDataSpecification obj)
  || from_option (λ c, bool_decide (is_Some (HasSemantics.semantic_id c)))
       false (as_HasSemantics obj)
  || from_option (λ c, bool_decide (HasKind.kind c = ModelingKind.TEMPLATE))
       false (as_HasKind obj)
  || from_option (λ c, bool_decide (Qualifiable.qualifier c ≠ ∅))
       false (as_Qualifiable obj).

(** The fragments that a run hands to its caller: the returned list; a run
    that raises hands over nothing. *)
Definition fragments (r : Entity * outcome (list ET.Element)) : list ET.Element :=
  match r.2 with
  | Return elements => elements
  | Raise _ => []
  end.

(** A computation that leaves the object as it found it. *)
Definition read_only {A} (m : M A) : Prop := ∀ obj, (m obj).1 = obj.

(** When an optional attribute counts as empty or absent. *)
Definition category_empty (obj : Entity) : Prop :=
  ∀ c, as_Referable obj = Some c →
    Referable.category c = None ∨ Referable.category c = Some "".

Definition description_empty (obj : Entity) : Prop :=
  ∀ c, as_Referable obj = Some c →
    Referable.description c = None ∨ Referable.description c = Some ∅.

Definition administration_absent (obj : Entity) : Prop :=
  ∀ c, as_Identifiable obj = Some c → Identifiable.administration c = None.

Definition data_specification_empty (obj : Entity) : Prop :=
  ∀ c, as_HasDataSpecification obj = Some c →
    HasDataSpecification.data_specification c = ∅.

Definition semantic_id_absent (obj : Entity) : Prop :=
  ∀ c, as_HasSemantics obj = Some c → HasSemantics.semantic_id c = None.

Definition qualifier_empty (obj : Entity) : Prop :=
  ∀ c, as_Qualifiable obj = Some c → Qualifiable.qualifier c = ∅.

Definition kind_not_template (obj : Entity) : Prop :=
  ∀ c, as_HasKind obj = Some c → HasKind.kind c = ModelingKind.INSTANCE.

(** An element without text and without children. *)
Definition empty_content (e : ET.Element) : Prop :=
  truthy (ET.text e) = false ∧ ET.children e = [].

(** Replacing [id_short], and the id value of the identification. *)
Definition with_id_short (s : string) (obj : Entity) : Entity :=
  mkEntity (class_name obj) (mro obj)
    ((λ c, Referable.mk s (Referable.category c) (Referable.description c))
       <$> as_Referable obj)
    (as_Identifiable obj) (as_HasDataSpecification obj) (as_HasSemantics obj)
    (as_HasKind obj) (as_Qualifiable obj).

Definition with_id (s : string) (obj : Entity) : Entity :=
  mkEntity (class_name obj) (mro obj) (as_Referable obj)
    ((λ c, Identifiable.mk
             (Identifier.mk s (Identifier.id_type (Identifiable.identification c)))
             (Identifiable.administration c))
       <$> as_Identifiable obj)
    (as_HasDataSpecification obj) (as_HasSemantics obj)
    (as_HasKind obj) (as_Qualifiable obj).

(** ** Sample objects *)

(** A registry with some of the element classes. *)
Definition sample_registry : gset string :=
  list_to_set ["Asset"; "AssetAdministrationShell"; "ConceptDescription";
               "Submodel"; "Property"].

Definition asset_mro : list string := ["Asset"; "Identifiable"; "Referable"; "object"].

(** An Asset: Referable and Identifiable, [id_short = "MyAsset"],
    identification (IRI, "https://example.com/asset/1"), no administration. *)
Definition my_asset : Entity :=
  mkEntity "Asset" asset_mro
    (Some (Referable.mk "MyAsset" None None))
    (Some (Identifiable.mk
             (Identifier.mk "https://example.com/asset/1" IdentifierType.IRI) None))
    None None None None.

(** The same Asset with an IRDI identification. *)
Definition irdi_asset : Entity :=
  mkEntity "Asset" asset_mro
    (Some (Referable.mk "Pump" None None))
    (Some (Identifiable.mk (Identifier.mk "0173-1#01-AFZ615#016" IdentifierType.IRDI) None))
    None None None None.

(** An Asset with administration: version "1", no revision. *)
Definition versioned_asset : Entity :=
  mkEntity "Asset" asset_mro
    (Some (Referable.mk "Versioned" None None))
    (Some (Identifiable.mk
             (Identifier.mk "https://example.com/asset/2" IdentifierType.IRI)
             (Some (AdministrativeInformation.mk (Some "1") None))))
    None None None None.

(** An object that exhibits HasKind alone, of kind Instance, and one of kind
    Template. *)
Definition instance_kind_only : Entity :=
  mkEntity "HasKind" ["HasKind"; "object"]
    None None None None (Some (HasKind.mk ModelingKind.INSTANCE)) None.

Definition template_kind_only : Entity :=
  mkEntity "HasKind" ["HasKind"; "object"]
    None None None None (Some (HasKind.mk ModelingKind.TEMPLATE)) None.

(** A Referable object with HasKind, of kind Template. *)
Definition template_element : Entity :=
  mkEntity "Property" ["Property"; "HasKind"; "Referable"; "object"]
    (Some (Referable.mk "MaxSpeed" None None))
    None None None (Some (HasKind.mk ModelingKind.TEMPLATE)) None.

(** Referable and Identifiable objects whose required attribute is empty. *)
Definition unnamed_element : Entity :=
  mkEntity "Property" ["Property"; "Referable"; "object"]
    (Some (Referable.mk "" None None)) None None None None None.

Definition unidentified_asset : Entity :=
  mkEntity "Asset" asset_mro
    (Some (Referable.mk "MyAsset" None None))
    (Some (Identifiable.mk (Identifier.mk "" IdentifierType.IRI) None))
    None None None None.

(** A Referable object of a class that the registry does not know. *)
Definition alien : Entity :=
  mkEntity "Alien" ["Alien"; "Referable"; "object"]
    (Some (Referable.mk "E.T." None None)) None None None None None.

(** An object that exhibits the four capabilities with optional attributes
    only, all of them empty. *)
Definition empty_handed : Entity :=
  mkEntity "Mixin" ["Mixin"; "HasDataSpecification"; "HasSemantics"; "HasKind";
                    "Qualifiable"; "object"]
    None None
    (Some (HasDataSpecification.mk ∅))
    (Some (HasSemantics.mk None))
    (Some (HasKind.mk ModelingKind.INSTANCE))
    (Some (Qualifiable.mk ∅)).

(** The object with another class. *)
Definition with_class (name : string) (classes : list string) (obj : Entity) : Entity :=
  mkEntity name classes (as_Referable obj) (as_Identifiable obj)
    (as_HasDataSpecification obj) (as_HasSemantics obj) (as_HasKind obj)
    (as_Qualifiable obj).

(** ** [aas.model.security] ([src/aas/model/security.py]) *)

Module security.

Definition ValueError (msg : string) : PyErr := mkErr "ValueError" msg.

(** *** [PermissionKind] (lines 8-23)

    An [Enum] class with four members; [value] is the value that the class
    body gives each member. *)
Module PermissionKind.
Inductive t := ALLOW | DENY | NOT_APPLICABLE | UNDEFINED.
#[global] Instance eq_dec : EqDecision t.
Proof. solve_decision. Defined.

Definition value (m : t) : Z :=
  match m with
  | ALLOW => 0
  | DENY => 1
  | NOT_APPLICABLE => 2
  | UNDEFINED => 3
  end.

(** The members in the order of the class body. *)
Definition members : list t := [ALLOW; DENY; NOT_APPLICABLE; UNDEFINED].

(** The decorator [@unique] (line 8): [ValueError] when two members have the
    same value. *)
Definition unique : outcome unit :=
  if bool_decide (NoDup (value <$> members)) then Return tt
  else Raise (ValueError "duplicate values found in <enum 'PermissionKind'>").

(** [PermissionKind(v)]: the member whose value is [v], [ValueError] when
    there is none. *)
Definition call (v : Z) : outcome t :=
  match list_find (λ m, value m = v) members with
  | Some (_, m) => Return m
  | None => Raise (ValueError (pretty v +:+ " is not a valid PermissionKind"))
  end.
End PermissionKind.

(** *** Sets on the heap

    The initializers below store the sets they are given, not copies, and
    three of them have parameters whose default is [set()]: the sets are
    objects of a heap, known by their addresses.  What a set holds is known by
    its identity, an address as well. *)
Definition addr := nat.
Definition heap := gmap addr (gset addr).

Definition H (A : Type) : Type := heap → heap * A.

#[global] Instance H_ret : MRet H := λ A a h, (h, a).

#[global] Instance H_bind : MBind H := λ A B k m h,
  let '(h', a) := m h in k a h'.

(** [set()]: a new, empty set. *)
Definition set_new : H addr :=
  λ h, let s := fresh (dom h) in (<[s := ∅]> h, s).

(** [s.add(x)] *)
Definition set_add (s x : addr) : H unit :=
  λ h, (alter (λ X, {[x]} ∪ X) s h, tt).

(** The elements of the set at [s]. *)
Definition elements_of (h : heap) (s : addr) : gset addr := default ∅ (h !! s).

(** *** [AccessPermissionRule] (lines 118-163)

    [def_init] is the statement [def __init__] (line 130), which evaluates
    the defaults of the parameters, once, in their order; [__init__] is a
    call of the initializer, where [None] for a parameter with a default
    stands for an argument left out.  Line 157, [super().__init__()], runs
    the initializers of [base.Referable] and [base.Qualifiable], which are
    not part of the sources at hand; the lines after it assign every
    attribute anew. *)
Module AccessPermissionRule.
Record defaults := mk_defaults {
  target_subject_attribute_default : addr;
  permissions_per_object_default : addr;
  qualifier_default : addr }.

Definition def_init : H defaults :=
  target_subject_attribute ← set_new;
  permissions_per_object ← set_new;
  qualifier ← set_new;
  mret (mk_defaults target_subject_attribute permissions_per_object qualifier).

Record t := mk {
  id_short : string;
  category : option string;
  description : option (gmap string string);
  parent : option Reference;
  qualifier : addr;
  target_subject_attribute : addr;
  permissions_per_object : addr }.

Definition __init__ (d : defaults) (id_short : string)
    (target_subject_attribute permissions_per_object : option addr)
    (category : option string) (description : option (gmap string string))
    (parent : option Reference) (qualifier : option addr) : t :=
  let target_subject_attribute :=
    default (target_subject_attribute_default d) target_subject_attribute in
  let permissions_per_object :=
    default (permissions_per_object_default d) permissions_per_object in
  let qualifier := default (qualifier_default d) qualifier in
  {| id_short := id_short;
     category := category;
     description := description;
     parent := parent;
     qualifier := qualifier;
     target_subject_attribute := target_subject_attribute;
     permissions_per_object := permissions_per_object |}.
End AccessPermissionRule.

(** *** [PolicyInformationPoints] (lines 281-306) *)
Module PolicyInformationPoints.
Record defaults := mk_defaults {
  external_information_point_default : addr;
  internal_information_point_default : addr }.

Definition def_init : H defaults :=
  external_information_point ← set_new;
  internal_information_point ← set_new;
  mret (mk_defaults external_information_point internal_information_point).

Record t := mk {
  external_information_point : addr;
  internal_information_point : addr }.

Definition __init__ (d : defaults)
    (external_information_point internal_information_point : option addr) : t :=
  {| external_information_point :=
       default (external_information_point_default d) external_information_point;
     internal_information_point :=
       default (internal_information_point_default d) internal_information_point |}.
End PolicyInformationPoints.

(** *** [Security] (lines 344-361)

    [access_control_policy_point] is an object, known by its address. *)
Module Security.
Record defaults := mk_defaults { trust_anchor_default : addr }.

Definition def_init : H defaults :=
  trust_anchor ← set_new;
  mret (mk_defaults trust_anchor).

Record t := mk {
  access_control_policy_point : addr;
  trust_anchor : addr }.

Definition __init__ (d : defaults) (access_control_policy_point : addr)
    (trust_anchor : option addr) : t :=
  {| access_control_policy_point := access_control_policy_point;
     trust_anchor := default (trust_anchor_default d) trust_anchor |}.
End Security.

(** *** The top level of the module

    A class definition evaluates its decorators and bases and runs its body,
    where each [def] evaluates the defaults and then the annotations of its
    parameters; then it binds the name of the class.  As far as names go it
    is a definition that reads these names, in this order. *)
Definition ClassDef (name : string) (reads : list string) : stmt :=
  FunctionDef name reads.

Definition security_py : list stmt :=
  [ Import "Optional"; Import "Set";                                   (* 2 *)
    Import "Enum"; Import "unique";                                    (* 3 *)
    Import "base"; Import "submodel";                                  (* 5 *)
    ClassDef "PermissionKind" ["unique"; "Enum"];                      (* 8 *)
    ClassDef "Permission" ["submodel"; "PermissionKind"];              (* 26 *)
    ClassDef "ObjectAttribute" ["submodel"];                           (* 47 *)
    ClassDef "PermissionsPerObject"
      ["base"; "Set"; "ObjectAttribute"; "Set"; "Permission"];         (* 69 *)
    ClassDef "SubjectAttribute" ["submodel"];                          (* 101 *)
    ClassDef "AccessPermissionRule"
      ["base"; "base"; "set"; "set"; "set";
       "str"; "Set"; "SubjectAttribute"; "Set"; "PermissionsPerObject";
       "Optional"; "str"; "Optional"; "base"; "Optional"; "base";
       "Set"; "base"];                                                 (* 118 *)
    ClassDef "AccessControl"
      ["submodel"; "submodel"; "submodel"; "submodel"; "submodel"; "submodel";
       "Set"; "AccessPermissionRule"];                                 (* 166 *)
    ClassDef "Endpoint" [];                                            (* 234 *)
    ClassDef "PolicyAdministrationPoint"
      ["Optional"; "AccessControl"; "Optional"; "Endpoint"];           (* 243 *)
    ClassDef "PolicyDecisionPoint" [];                                 (* 264 *)
    ClassDef "PolicyEnforcementPoint" [];                              (* 273 *)
    ClassDef "PolicyInformationPoints"
      ["set"; "set"; "Set"; "Endpoint"; "Set"; "submodel"];            (* 281 *)
    ClassDef "AccessControlPolicyPoints"
      ["PolicyAdministrationPoint"; "PolicyDecisionPoint";
       "PolicyEnforcementPoint"; "Optional"; "PolicyInformationPoints"]; (* 308 *)
    ClassDef "Certificate" [];                                         (* 337 *)
    ClassDef "Security"
      ["set"; "AccessControlPolicyPoints"; "Set"; "Certificate"] ].    (* 344 *)

End security.

(** * Properties *)

Example samples_well_formed :
  Forall well_formed
    [my_asset; irdi_asset; versioned_asset; instance_kind_only; template_kind_only;
     template_element; unnamed_element; unidentified_asset; alien; empty_handed].
Proof.
  repeat apply List.Forall_cons; [..|apply List.Forall_nil];
    intros H; first [ by destruct H | by eexists ].
Qed.

(** ** The enumeration tables *)









Example KEY_ELEMENTS_submodel :
  KEY_ELEMENTS !! KeyElements.SUBMODEL = Some "Submodel".
Proof. vm_compute. reflexivity. Qed.

Example IDENTIFIER_TYPES_iri :
  IDENTIFIER_TYPES !! IdentifierType.IRI = Some "IRI".
Proof. vm_compute. reflexivity. Qed.






(** ** The top level of the module *)

Example inspect_unbound : "inspect" ∉ module_globals ∪ builtins.
Proof. by_evaluation. Qed.

Example ET_bound : "ET" ∈ module_globals.
Proof. by_evaluation. Qed.

(** Running the statements of the module stops at line 28, where the
    annotation reads the name [Dict]. *)
Lemma exec_xml_serialization :
  exec_module ∅ xml_serialization = Raise (NameError "Dict").
Proof. vm_compute. reflexivity. Qed.

(** ** Computations that only read the object *)

Lemma read_only_ret {A} (a : A) : read_only (mret a).
Proof. intros obj. reflexivity. Qed.

Lemma read_only_raise {A} (e : PyErr) : read_only (raise (A := A) e).
Proof. intros obj. reflexivity. Qed.

Lemma read_only_getattr {A} (f : Entity → A) : read_only (getattr f).
Proof. intros obj. reflexivity. Qed.

Lemma read_only_bind {A B} (m : M A) (k : A → M B) :
  read_only m → (∀ a, read_only (k a)) → read_only (m ≫= k).
Proof.
  intros Hm Hk obj. unfold mbind, M_bind.
  specialize (Hm obj). destruct (m obj) as [obj' [a|e]]; simpl in *; subst obj'.
  - apply Hk.
  - reflexivity.
Qed.

Lemma read_only_call callee args : read_only (call callee args).
Proof. apply read_only_raise. Qed.

Lemma read_only_next {A} (xs : list A) : read_only (next xs).
Proof. destruct xs; [apply read_only_raise | apply read_only_ret]. Qed.

Lemma read_only_load_global name : read_only (load_global name).
Proof.
  unfold load_global. case_bool_decide; [apply read_only_ret | apply read_only_raise].
Qed.

Lemma read_only_try_except {A} (body : M A) cls (handler : PyErr → M A) :
  read_only body → (∀ e, read_only (handler e)) → read_only (try_except body cls handler).
Proof.
  intros Hbody Hhandler obj. unfold try_except.
  specialize (Hbody obj). destruct (body obj) as [obj' [a|e]]; simpl in *; subst obj'.
  - reflexivity.
  - case_bool_decide; [apply Hhandler | reflexivity].
Qed.

Ltac read_only_step :=
  lazymatch goal with
  | |- read_only (mbind _ _) => apply read_only_bind; [|intros ?]
  | |- read_only (mret _) => apply read_only_ret
  | |- read_only (raise _) => apply read_only_raise
  | |- read_only (isinstance _) => apply read_only_getattr
  | |- read_only (getattr _) => apply read_only_getattr
  | |- read_only (call _ _) => apply read_only_call
  | |- read_only (next _) => apply read_only_next
  | |- read_only (load_global _) => apply read_only_load_global
  | |- read_only (try_except _ _ _) => apply read_only_try_except; [|intros ?]
  | |- read_only (match ?x with _ => _ end) => destruct x
  end.

Lemma resolve_ref_type_read_only reg : read_only (resolve_ref_type reg).
Proof. unfold resolve_ref_type. repeat read_only_step. Qed.

Lemma abstract_classes_to_xml_read_only reg :
  read_only (abstract_classes_to_xml reg).
Proof.
  unfold abstract_classes_to_xml. cbv zeta.
  repeat first [apply resolve_ref_type_read_only | read_only_step].
Qed.

(** ** Type resolution *)

(** Lines 101-105 read the name [inspect] first, which nothing binds: run on
    their own they raise NameError, which the handler for StopIteration lets
    pass. *)
Lemma resolve_ref_type_NameError reg obj :
  resolve_ref_type reg obj = (obj, Raise (NameError "inspect")).
Proof. reflexivity. Qed.

(** ** What a run of [abstract_classes_to_xml] comes to *)

(** A run raises at the first call [et.text(...)] it comes to, and returns the
    empty list when it comes to none. *)
Lemma abstract_classes_to_xml_outcome reg obj :
  abstract_classes_to_xml reg obj =
    (obj, if reaches_text_call obj then Raise NoneType_not_callable else Return []).
Proof.
  destruct obj as [cn ms [r|] [i|] [[d]|] [[[s|]]|] [[k]|] [[q]|]]; try reflexivity.
  all: unfold abstract_classes_to_xml, reaches_text_call; simpl.
  all: cbv [mbind M_bind isinstance getattr mret M_ret call raise]; simpl.
  all: repeat (case_bool_decide; simpl); reflexivity.
Qed.

(** Whatever a run hands to its caller is empty. *)
Lemma fragments_nil reg obj : fragments (abstract_classes_to_xml reg obj) = [].
Proof.
  rewrite abstract_classes_to_xml_outcome. unfold fragments; simpl.
  destruct (reaches_text_call obj); reflexivity.
Qed.

(** An object that exhibits none of the capabilities is returned the empty
    list. *)
Theorem bare_returns reg name classes :
  abstract_classes_to_xml reg (mkEntity name classes None None None None None None)
  = (mkEntity name classes None None None None None None, Return []).
Proof. reflexivity. Qed.

(** C1: the run on the Asset of the specification's scenario ([id_short]
    "MyAsset", identification (IRI, "https://example.com/asset/1")) raises
    TypeError at line 91 and so lists no contribution of any capability,
    whatever the registry. *)
Theorem my_asset_raises reg :
  abstract_classes_to_xml reg my_asset = (my_asset, Raise NoneType_not_callable).
Proof. reflexivity. Qed.

(** C2, as stated, fails: an object that exhibits HasKind, of kind Instance,
    and no other capability, is returned the empty list. *)
Lemma instance_kind_only_returns :
  is_Some (as_HasKind instance_kind_only) ∧
  abstract_classes_to_xml sample_registry instance_kind_only
  = (instance_kind_only, Return []).
Proof. split; [eexists|]; reflexivity. Qed.

(** C2, as amended: a run raises TypeError, "'NoneType' object is not
    callable", exactly when the object is Referable or Identifiable or has a
    non-empty data-specification set, a semantic id, kind Template or a
    non-empty qualifier set, and returns the empty list for every other
    object; the name [inspect] is bound nowhere in the module, so that lines
    101-105, which no run reaches, would raise NameError; and the module's
    own top level raises NameError for [Dict]. *)
Theorem raises_or_returns_nothing reg obj :
  abstract_classes_to_xml reg obj =
    (obj, if reaches_text_call obj then Raise NoneType_not_callable else Return [])
  ∧ ("inspect" ∉ module_globals ∪ builtins)
  ∧ resolve_ref_type reg obj = (obj, Raise (NameError "inspect"))
  ∧ exec_module ∅ xml_serialization = Raise (NameError "Dict").
Proof.
  split; [apply abstract_classes_to_xml_outcome|].
  split; [apply inspect_unbound|].
  split; [apply resolve_ref_type_NameError | apply exec_xml_serialization].
Qed.

(** C3, as stated, fails: the runs on a Referable object with an empty
    [id_short] and on an Identifiable object with an empty id value raise
    TypeError, not MissingRequiredAttributeError. *)
Lemma empty_required_attribute_TypeError :
  (abstract_classes_to_xml sample_registry unnamed_element).2
    = Raise NoneType_not_callable
  ∧ (abstract_classes_to_xml sample_registry unidentified_asset).2
    = Raise NoneType_not_callable
  ∧ exc_type NoneType_not_callable ≠ "MissingRequiredAttributeError".
Proof. split; [reflexivity|]. split; [reflexivity | discriminate]. Qed.

(** C3, as amended: no run raises MissingRequiredAttributeError, and what a
    run comes to does not depend on [id_short] or on the id value, empty or
    not. *)
Theorem no_required_attribute_check reg obj :
  (∀ e, (abstract_classes_to_xml reg obj).2 = Raise e →
        exc_type e ≠ "MissingRequiredAttributeError")
  ∧ (∀ s, (abstract_classes_to_xml reg (with_id_short s obj)).2
          = (abstract_classes_to_xml reg (with_id_short "" obj)).2)
  ∧ (∀ s, (abstract_classes_to_xml reg (with_id s obj)).2
          = (abstract_classes_to_xml reg (with_id "" obj)).2).
Proof.
  split; [|split].
  - intros e. rewrite abstract_classes_to_xml_outcome; simpl.
    destruct (reaches_text_call obj); [|discriminate].
    intros [= <-]. discriminate.
  - intros s. rewrite !abstract_classes_to_xml_outcome; simpl.
    destruct obj as [? ? [?|] ? ? ? ? ?]; reflexivity.
  - intros s. rewrite !abstract_classes_to_xml_outcome; simpl.
    destruct obj as [? ? ? [?|] ? ? ? ?]; reflexivity.
Qed.

(** C4: the run on a Referable object none of whose classes is registered
    raises at line 91, as the run on a registered Asset does, with an
    exception that is not the one of lines 103-105; type resolution, which the
    run does not reach, raises NameError for [inspect] when run on its own. *)
Theorem alien_resolution_not_reached :
  filter (λ t, t ∈ sample_registry) (mro alien) = []
  ∧ filter (λ t, t ∈ sample_registry) (mro my_asset) = ["Asset"]
  ∧ abstract_classes_to_xml sample_registry alien = (alien, Raise NoneType_not_callable)
  ∧ (abstract_classes_to_xml sample_registry my_asset).2
    = (abstract_classes_to_xml sample_registry alien).2
  ∧ NoneType_not_callable
    ≠ TypeError
        "Object of type Alien is Referable but does not inherit from a known AAS type"
  ∧ resolve_ref_type sample_registry alien = (alien, Raise (NameError "inspect")).
Proof.
  split; [vm_compute; reflexivity|].
  split; [vm_compute; reflexivity|].
  split; [reflexivity|].
  split; [reflexivity|].
  split; [discriminate | reflexivity].
Qed.

(** C5: the runs on an object of kind Template, alone or Referable as well,
    raise TypeError (lines 140 and 91) and hand over no modeling-kind
    fragment. *)
Theorem template_kind_raises reg :
  abstract_classes_to_xml reg template_kind_only
    = (template_kind_only, Raise NoneType_not_callable)
  ∧ abstract_classes_to_xml reg template_element
    = (template_element, Raise NoneType_not_callable)
  ∧ fragments (abstract_classes_to_xml reg template_kind_only) = []
  ∧ fragments (abstract_classes_to_xml reg template_element) = [].
Proof. repeat split. Qed.

Lemma nothing_to_emit obj :
  as_Referable obj = None → as_Identifiable obj = None → kind_not_template obj →
  data_specification_empty obj → semantic_id_absent obj → qualifier_empty obj →
  reaches_text_call obj = false.
Proof.
  unfold kind_not_template, data_specification_empty, semantic_id_absent,
    qualifier_empty, reaches_text_call.
  destruct obj as [cn ms r i d s k q]; simpl.
  intros -> -> Hk Hd Hs Hq. simpl.
  destruct d as [d|]; simpl;
    [rewrite (Hd d eq_refl), bool_decide_eq_false_2 by (intros H; by apply H)|];
  (destruct s as [s|]; simpl;
    [rewrite (Hs s eq_refl), bool_decide_eq_false_2 by (by intros [? ?])|]);
  (destruct k as [k|]; simpl;
    [rewrite (Hk k eq_refl), bool_decide_eq_false_2 by discriminate|]);
  (destruct q as [q|]; simpl;
    [rewrite (Hq q eq_refl), bool_decide_eq_false_2 by (intros H; by apply H)|]);
  reflexivity.
Qed.

(** C6: an optional attribute that is empty or absent has no fragment among
    those a run hands to its caller, and none of these fragments has empty
    content; an object that is neither Referable nor Identifiable, is not of
    kind Template and whose data-specification set, semantic id and qualifier
    set are empty or absent is returned the empty list. *)
Theorem empty_optional_attributes_omitted reg obj :
  let out := fragments (abstract_classes_to_xml reg obj) in
  (category_empty obj → "aas:category" ∉ (ET.tag <$> out))
  ∧ (description_empty obj → "description" ∉ (ET.tag <$> out))
  ∧ (administration_absent obj → "aas:administration" ∉ (ET.tag <$> out))
  ∧ (data_specification_empty obj → "aas:embeddedDataSpecification" ∉ (ET.tag <$> out))
  ∧ (semantic_id_absent obj → "aas:semanticId" ∉ (ET.tag <$> out))
  ∧ (qualifier_empty obj → "aas:qualifier" ∉ (ET.tag <$> out))
  ∧ (∀ e, e ∈ out → ¬ empty_content e)
  ∧ (as_Referable obj = None → as_Identifiable obj = None → kind_not_template obj →
     data_specification_empty obj → semantic_id_absent obj → qualifier_empty obj →
     abstract_classes_to_xml reg obj = (obj, Return [])).
Proof.
  cbv zeta. rewrite fragments_nil.
  repeat split; try (intros; apply not_elem_of_nil).
  - intros e He. by apply not_elem_of_nil in He.
  - intros Hr Hi Hk Hd Hs Hq.
    rewrite abstract_classes_to_xml_outcome, nothing_to_emit by assumption.
    reflexivity.
Qed.

Example empty_handed_returns reg :
  abstract_classes_to_xml reg empty_handed = (empty_handed, Return []).
Proof. reflexivity. Qed.

(** C7: the run on an Asset with administration (version "1", no revision)
    raises TypeError at line 91 and hands over no administration fragment. *)
Theorem versioned_asset_raises reg :
  abstract_classes_to_xml reg versioned_asset
    = (versioned_asset, Raise NoneType_not_callable)
  ∧ fragments (abstract_classes_to_xml reg versioned_asset) = [].
Proof. split; reflexivity. Qed.

(** C8: the run on an Asset with an IRDI identification raises TypeError at
    line 91 and hands over no identification fragment. *)
Theorem irdi_asset_raises reg :
  abstract_classes_to_xml reg irdi_asset = (irdi_asset, Raise NoneType_not_callable)
  ∧ fragments (abstract_classes_to_xml reg irdi_asset) = [].
Proof. split; reflexivity. Qed.

(** C10: a run leaves the object as it found it, and a second run, on the
    object that the first run leaves, comes to the same outcome as the
    first. *)
Theorem serialization_repeatable reg obj :
  let first := abstract_classes_to_xml reg obj in
  first.1 = obj ∧ abstract_classes_to_xml reg first.1 = first.
Proof.
  cbv zeta. pose proof (abstract_classes_to_xml_read_only reg obj) as Hsame.
  split; [exact Hsame|]. rewrite Hsame. reflexivity.
Qed.

(** ** Further properties of [xml_serialization.py] *)

(** What a run comes to depends neither on the registry nor on the class of
    the object: type resolution has no part in it. *)
Theorem type_resolution_never_matters reg reg' name classes obj :
  (abstract_classes_to_xml reg' (with_class name classes obj)).2
  = (abstract_classes_to_xml reg obj).2.
Proof.
  rewrite !abstract_classes_to_xml_outcome. destruct obj; reflexivity.
Qed.

(** Loading names that are all at hand succeeds. *)
Lemma load_names_bound ns names :
  Forall (λ n, n ∈ ns ∪ builtins) names → load_names ns names = Return tt.
Proof.
  induction 1 as [|n names Hn _ IH]; simpl; [reflexivity|].
  rewrite bool_decide_eq_true_2 by assumption. exact IH.
Qed.

(** Loading stops at the first name that is not at hand. *)
Lemma load_names_unbound ns before n after :
  Forall (λ n, n ∈ ns ∪ builtins) before → n ∉ ns ∪ builtins →
  load_names ns (before ++ n :: after) = Raise (NameError n).
Proof.
  intros Hbefore Hn. induction Hbefore as [|m before Hm _ IH]; simpl.
  - rewrite bool_decide_eq_false_2 by assumption. reflexivity.
  - rewrite bool_decide_eq_true_2 by assumption. exact IH.
Qed.

Ltac names_bound := unfold builtins; repeat constructor; set_solver.

Ltac exec_bound :=
  repeat (rewrite load_names_bound by names_bound; cbn [exec_module exec_stmt]).

(** Run in a namespace [ns], the top level of [xml_serialization.py]
    completes exactly when [ns] binds [Dict] and [submodel], and then binds
    the names of the module on top of [ns]; otherwise it raises NameError for
    [Dict] when that is missing (line 28) and else for [submodel] (line
    157). *)
Theorem xml_serialization_missing_names ns :
  exec_module ns xml_serialization =
    if bool_decide ("Dict" ∈ ns) then
      if bool_decide ("submodel" ∈ ns) then Return (module_globals ∪ ns)
      else Raise (NameError "submodel")
    else Raise (NameError "Dict").
Proof.
  unfold xml_serialization. cbn [exec_module exec_stmt].
  rewrite (load_names_bound _ ["model"]) by names_bound.
  case_bool_decide as HDict.
  - exec_bound. case_bool_decide as Hsubmodel.
    + exec_bound. f_equal. unfold module_globals. cbn. set_solver.
    + rewrite (load_names_unbound _ [] "submodel" []); [reflexivity|constructor|].
      unfold builtins. set_solver.
  - rewrite (load_names_unbound _ [] "Dict" ["model"; "str"]); [reflexivity|constructor|].
    unfold builtins. set_solver.
Qed.

(** ** Properties of [security.py] *)

(** The built-in name [set], which [security.py] reads and which is not among
    [builtins] above, has to be bound where the module starts; then the top
    level completes: every class is defined before a definition reads its
    name. *)
Theorem security_py_loads ns :
  "set" ∈ ns →
  exec_module ns security.security_py
  = Return (list_to_set (bound_name <$> security.security_py) ∪ ns).
Proof.
  intros Hset. unfold security.security_py, security.ClassDef.
  cbn [exec_module exec_stmt]. exec_bound.
  f_equal. cbn. set_solver.
Qed.

Lemma security_py_loads_with_set :
  exec_module {["set"]} security.security_py
  = Return (list_to_set (bound_name <$> security.security_py) ∪ {["set"]}).
Proof. apply security_py_loads. set_solver. Defined.

(** A lookup by value, case by case. *)
Lemma PermissionKind_call_cases v :
  security.PermissionKind.call v =
    if decide (0 = v)%Z then Return security.PermissionKind.ALLOW
    else if decide (1 = v)%Z then Return security.PermissionKind.DENY
    else if decide (2 = v)%Z then Return security.PermissionKind.NOT_APPLICABLE
    else if decide (3 = v)%Z then Return security.PermissionKind.UNDEFINED
    else Raise (security.ValueError (pretty v +:+ " is not a valid PermissionKind")).
Proof.
  unfold security.PermissionKind.call, security.PermissionKind.members.
  cbn [list_find security.PermissionKind.value].
  repeat (case_decide; [reflexivity|]). reflexivity.
Qed.

(** [PermissionKind]: the decorator [unique] accepts the class; looking a
    member up by its value gives the member back; and a lookup succeeds for
    the values 0 to 3 and raises ValueError for every other integer. *)
Theorem PermissionKind_values :
  security.PermissionKind.unique = Return tt
  ∧ (∀ v m, security.PermissionKind.call v = Return m ↔
            v = security.PermissionKind.value m)
  ∧ (∀ v, ¬ (0 ≤ v ≤ 3)%Z →
          security.PermissionKind.call v
          = Raise (security.ValueError (pretty v +:+ " is not a valid PermissionKind"))).
Proof.
  split; [reflexivity|]. split.
  - intros v m. rewrite PermissionKind_call_cases. split.
    + repeat case_decide; intros [= <-]; subst v; reflexivity.
    + intros ->. destruct m; reflexivity.
  - intros v Hv. rewrite PermissionKind_call_cases.
    repeat (case_decide; [lia|]). reflexivity.
Qed.

(** A new set is none of the sets of the heap, and is empty. *)
Lemma set_new_fresh (h : security.heap) :
((security.set_new h).2 ∉ dom h)
  ∧ (security.set_new h).1 = <[(security.set_new h).2 := ∅]> h.
Proof. split; [apply is_fresh | reflexivity]. Qed.

(** [AccessPermissionRule] objects made without a [qualifier] argument have
    one and the same set as their [qualifier]: what is added to the set of
    one is in the set of the other.  The defaults of the three set parameters
    are three sets, new when [__init__] is defined, and adding to one leaves
    the other two and every older set as they were. *)
Theorem AccessPermissionRule_default_sets_shared
    (h : security.heap) id1 c1 de1 p1 id2 c2 de2 p2 x :
  let '(h1, d) := security.AccessPermissionRule.def_init h in
  let r1 := security.AccessPermissionRule.__init__ d id1 None None c1 de1 p1 None in
  let r2 := security.AccessPermissionRule.__init__ d id2 None None c2 de2 p2 None in
  let h2 := (security.set_add (security.AccessPermissionRule.qualifier r1) x h1).1 in
  security.elements_of h1 (security.AccessPermissionRule.qualifier r2) = ∅
  ∧ security.elements_of h2 (security.AccessPermissionRule.qualifier r2) = {[x]}
  ∧ security.elements_of h2 (security.AccessPermissionRule.target_subject_attribute r2) = ∅
  ∧ security.elements_of h2 (security.AccessPermissionRule.permissions_per_object r2) = ∅
  ∧ (∀ s, s ∈ dom h → h2 !! s = h !! s).
Proof.
  unfold security.AccessPermissionRule.def_init.
  cbv [mbind security.H_bind mret security.H_ret].
  destruct (set_new_fresh h) as [Ha Eh1].
  destruct (security.set_new h) as [h1 a]; simpl in Ha, Eh1.
  destruct (set_new_fresh h1) as [Hb Eh2].
  destruct (security.set_new h1) as [h2 b]; simpl in Hb, Eh2.
  destruct (set_new_fresh h2) as [Hc Eh3].
  destruct (security.set_new h2) as [h3 c]; simpl in Hc, Eh3.
  cbn. unfold security.elements_of, security.heap, security.addr in *.
  subst h3 h2 h1. rewrite !dom_insert_L in *.
  assert (b ≠ a) by set_solver. assert (c ≠ a) by set_solver.
  assert (c ≠ b) by set_solver.
  repeat split.
  - by rewrite lookup_insert_eq.
  - rewrite lookup_alter_eq, lookup_insert_eq. simpl. set_solver.
  - rewrite lookup_alter_ne, !lookup_insert_ne, lookup_insert_eq by done. done.
  - rewrite lookup_alter_ne, lookup_insert_ne, lookup_insert_eq by done. done.
  - intros s Hs. rewrite lookup_alter_ne, !lookup_insert_ne by set_solver. done.
Qed.

(** The same for the two sets of [PolicyInformationPoints] and for
    [trust_anchor] of [Security]: objects made without the argument have one
    set between them, so that what is added through one object is seen
    through the other. *)
Theorem PolicyInformationPoints_Security_default_sets_shared
    (h : security.heap) (p1 p2 x y z : security.addr) :
  let '(h1, dp) := security.PolicyInformationPoints.def_init h in
  let '(h2, ds) := security.Security.def_init h1 in
  let i1 := security.PolicyInformationPoints.__init__ dp None None in
  let i2 := security.PolicyInformationPoints.__init__ dp None None in
  let s1 := security.Security.__init__ ds p1 None in
  let s2 := security.Security.__init__ ds p2 None in
  let h3 :=
    (security.set_add (security.PolicyInformationPoints.external_information_point i1) x h2).1 in
  let h4 :=
    (security.set_add (security.PolicyInformationPoints.internal_information_point i1) y h3).1 in
  let h5 := (security.set_add (security.Security.trust_anchor s1) z h4).1 in
  security.elements_of h5 (security.PolicyInformationPoints.external_information_point i2) = {[x]}
  ∧ security.elements_of h5 (security.PolicyInformationPoints.internal_information_point i2) = {[y]}
  ∧ security.elements_of h5 (security.Security.trust_anchor s2) = {[z]}
  ∧ (∀ s, s ∈ dom h → h5 !! s = h !! s).
Proof.
  unfold security.PolicyInformationPoints.def_init, security.Security.def_init.
  cbv [mbind security.H_bind mret security.H_ret].
  destruct (set_new_fresh h) as [Ha Eh1].
  destruct (security.set_new h) as [h1 a]; simpl in Ha, Eh1.
  destruct (set_new_fresh h1) as [Hb Eh2].
  destruct (security.set_new h1) as [h2 b]; simpl in Hb, Eh2.
  destruct (set_new_fresh h2) as [Hc Eh3].
  destruct (security.set_new h2) as [h3 c]; simpl in Hc, Eh3.
  cbn. unfold security.elements_of, security.heap, security.addr in *.
  subst h3 h2 h1. rewrite !dom_insert_L in *.
  assert (b ≠ a) by set_solver. assert (c ≠ a) by set_solver.
  assert (c ≠ b) by set_solver.
  repeat split.
  - rewrite !lookup_alter_ne, lookup_alter_eq, !lookup_insert_ne, lookup_insert_eq by done.
    simpl. set_solver.
  - rewrite lookup_alter_ne, lookup_alter_eq, lookup_alter_ne, lookup_insert_ne,
      lookup_insert_eq by done.
    simpl. set_solver.
  - rewrite lookup_alter_eq, !lookup_alter_ne, lookup_insert_eq by done.
    simpl. set_solver.
  - intros s Hs. rewrite !lookup_alter_ne, !lookup_insert_ne by set_solver. done.
Qed.
